(** * Agent service: the operator (agent factory) and its HTTP routes

    A shallow embedding of [agents/operator.py] and [api/routes/agents.py].
    Pure Python functions are Rocq functions.  Code that calls the external
    agent builders or an agent's run operation is written in a small
    state-and-exception monad whose state holds the outside world and a log
    of the external calls made so far, so that statements such as "the Sage
    builder is invoked exactly once" are statements about that log. *)

From Stdlib Require Import String Ascii List ZArith Bool.
From Stdlib Require Import Eqdep_dec PeanoNat.
Import ListNotations.
Local Open Scope string_scope.

(** ** Fragments of the Python runtime the sources rely on *)
Module Py.

(** [s.startswith((p1, ..., pn))]: some element of the tuple is a prefix. *)
Definition startswith (s : string) (prefixes : list string) : bool :=
  existsb (fun p => String.prefix p s) prefixes.

(** "[s] starts with [p]", as a proposition. *)
Definition starts_with (p s : string) : Prop := exists rest, s = p ++ rest.

(** [s.replace(old, new)] for a non-empty [old]: left-to-right,
    non-overlapping.  [skip] counts the characters of a match still to drop. *)
Fixpoint replace_from (old new : string) (skip : nat) (s : string) : string :=
  match s with
  | EmptyString => EmptyString
  | String c rest =>
      match skip with
      | S k => replace_from old new k rest
      | O =>
          if String.prefix old s
          then new ++ replace_from old new (String.length old - 1) rest
          else String c (replace_from old new 0 rest)
      end
  end.

(** With an empty [old] Python puts [new] before every character and at
    the end. *)
Fixpoint replace_empty (new s : string) : string :=
  match s with
  | EmptyString => new
  | String c rest => new ++ String c (replace_empty new rest)
  end.

Definition replace (s old new : string) : string :=
  match old with
  | EmptyString => replace_empty new s
  | String _ _ => replace_from old new 0 s
  end.

(** For stating what a replacement does: a string rewritten character by
    character. *)
Fixpoint map_chars (f : ascii -> ascii) (s : string) : string :=
  match s with
  | EmptyString => EmptyString
  | String c rest => String (f c) (map_chars f rest)
  end.

(** A dict built by a comprehension: a repeated key keeps its first
    position and takes the last value. *)
Fixpoint dict_set {V : Type} (d : list (string * V)) (k : string) (v : V)
  : list (string * V) :=
  match d with
  | [] => [(k, v)]
  | (k', v') :: d' =>
      if String.eqb k' k then (k', v) :: d' else (k', v') :: dict_set d' k v
  end.

Definition dict_of {V : Type} (items : list (string * V)) : list (string * V) :=
  fold_left (fun d kv => dict_set d (fst kv) (snd kv)) items [].

(** A keyword argument with a default: an omitted argument ([None]) takes
    the default of the signature. *)
Definition kwarg {A : Type} (given : option A) (default : A) : A :=
  match given with
  | Some a => a
  | None => default
  end.

(** Exceptions raised by code outside the repository, described by the two
    observations the sources make of them: whether [except Exception]
    matches, and [str(e)]. *)
Inductive ExcClass :=
| BaseException_only (name : string)
    (* SystemExit, KeyboardInterrupt, GeneratorExit, ... *)
| Exception_sub (name : string).
    (* Exception and every class deriving from it *)

Record ForeignExc := { exc_class : ExcClass; exc_str : string }.

Definition isinstance_Exception (e : ForeignExc) : bool :=
  match exc_class e with
  | BaseException_only _ => false
  | Exception_sub _ => true
  end.

Definition str (e : ForeignExc) : string := exc_str e.

(** The result of a call: a value, or a raised exception of type [E]. *)
Inductive Outcome (E A : Type) :=
| Return (a : A)
| Raise (e : E).
Arguments Return {E A} a.
Arguments Raise {E A} e.

(** Computations over a state [S] that may raise an [E]. *)
Definition Eff (S E A : Type) : Type := S -> Outcome E A * S.

Definition ret {S E A} (a : A) : Eff S E A := fun s => (Return a, s).

Definition raise {S E A} (e : E) : Eff S E A := fun s => (Raise e, s).

Definition bind {S E A B} (m : Eff S E A) (k : A -> Eff S E B) : Eff S E B :=
  fun s =>
    match m s with
    | (Return a, s') => k a s'
    | (Raise e, s') => (Raise e, s')
    end.

(** [try: body  except <filter> as e: handler]: an exception the filter
    does not match leaves through [escape]. *)
Definition try_except {S E E' A} (body : Eff S E A) (filter : E -> bool)
    (handler : E -> Eff S E' A) (escape : E -> E') : Eff S E' A :=
  fun s =>
    match body s with
    | (Return a, s') => (Return a, s')
    | (Raise e, s') =>
        if filter e then handler e s' else (Raise (escape e), s')
    end.

(** A call made outside any [try]: what it raises leaves the caller. *)
Definition uncaught {S E E' A} (escape : E -> E') (m : Eff S E A) : Eff S E' A :=
  fun s =>
    match m s with
    | (Return a, s') => (Return a, s')
    | (Raise e, s') => (Raise (escape e), s')
    end.

(** How an iteration ended: the iterator was exhausted, it raised, or the
    consumer stopped pulling with the iterator still live. *)
Inductive Ending (E G : Type) :=
| Completed
| Failed (e : E)
| Pending (g : G).
Arguments Completed {E G}.
Arguments Failed {E G} e.
Arguments Pending {E G} g.

(** [async for x in g], for at most [fuel] items: the items delivered, in
    order, and how the iteration ended. *)
Fixpoint consume {S E A G} (next : G -> Eff S E (option (A * G)))
    (fuel : nat) (g : G) (s : S) : (list A * Ending E G) * S :=
  match fuel with
  | O => (([], Pending g), s)
  | Datatypes.S n =>
      match next g s with
      | (Return (Some (a, g')), s') =>
          let '((items, ending), s'') := consume next n g' s' in
          ((a :: items, ending), s'')
      | (Return None, s') => (([], Completed), s')
      | (Raise e, s') => (([], Failed e), s')
      end
  end.

(** The same ending for a consumer that sees the iterator through [f]. *)
Definition Ending_map {E G G'} (f : G -> G') (e : Ending E G) : Ending E G' :=
  match e with
  | Completed => Completed
  | Failed x => Failed x
  | Pending g => Pending (f g)
  end.

End Py.

Notation "x <- m ;; k" := (Py.bind m (fun x => k))
  (at level 61, m at next level, right associativity).

(** ** agents/operator.py *)
Module Operator.
Import Py.

Inductive AgentType := SAGE | SCHOLAR.

Definition AgentType_value (a : AgentType) : string :=
  match a with
  | SAGE => "sage"
  | SCHOLAR => "scholar"
  end.

(** Iterating an Enum class yields its members in definition order. *)
Definition AgentType_members : list AgentType := [SAGE; SCHOLAR].

Definition AgentType_eqb (a b : AgentType) : bool :=
  match a, b with
  | SAGE, SAGE | SCHOLAR, SCHOLAR => true
  | _, _ => false
  end.

(** [AgentType(v)]: the member whose value is [v], if any. *)
Definition AgentType_of_value (v : string) : option AgentType :=
  find (fun a => String.eqb (AgentType_value a) v) AgentType_members.

Inductive ModelProvider := OPENAI | GROQ.

Definition ModelProvider_value (p : ModelProvider) : string :=
  match p with
  | OPENAI => "openai"
  | GROQ => "groq"
  end.

Definition ModelProvider_eqb (p q : ModelProvider) : bool :=
  match p, q with
  | OPENAI, OPENAI | GROQ, GROQ => true
  | _, _ => false
  end.

Definition get_available_agents : list string :=
  map AgentType_value AgentType_members.

Definition get_model_provider (model_id : string) : ModelProvider :=
  if startswith model_id ["llama"; "mixtral"] then GROQ else OPENAI.

Definition get_available_models : list (string * ModelProvider) :=
  [ ("gpt-4o", OPENAI);
    ("o3-mini", OPENAI);
    ("llama-3.3-70b-versatile", GROQ);
    ("llama-3.3-8b-versatile", GROQ);
    ("mixtral-8x7b-32768", GROQ) ].

(** What a caller may pass as [agent_id]: the annotation says
    [Optional[AgentType]], Python does not enforce it. *)
Inductive PyVal :=
| VNone
| VBool (b : bool)
| VInt (z : Z)
| VStr (s : string)
| VAgentType (a : AgentType)
| VModelProvider (p : ModelProvider).

(** Python's [==] on these values.  [AgentType] is a plain [Enum]: a member
    equals only itself, never its string value. *)
Definition py_eq (a b : PyVal) : bool :=
  match a, b with
  | VNone, VNone => true
  | VBool x, VBool y => Bool.eqb x y
  | VBool x, VInt y | VInt y, VBool x => (y =? Z.b2z x)%Z
  | VInt x, VInt y => (x =? y)%Z
  | VStr x, VStr y => String.eqb x y
  | VAgentType x, VAgentType y => AgentType_eqb x y
  | VModelProvider x, VModelProvider y => ModelProvider_eqb x y
  | _, _ => false
  end.

(** The keyword arguments both builders take. *)
Record BuilderArgs := {
  model_id : string;
  user_id : option string;
  session_id : option string;
  debug_mode : bool
}.

(** The collaborators the repository consumes and does not implement: the
    two agent builders ([agents.sage.get_sage], [agents.scholar.get_scholar])
    and the agent framework's run operation.  Each may read and change the
    outside world and may raise. *)
Class Externals := {
  World : Type;
  Agent : Type;
  RunResponse : Type;
  Chunk : Type;
  AsyncIter : Type;
  (** [response.content] and [chunk.content] *)
  response_content : RunResponse -> string;
  chunk_content : Chunk -> string;
  get_sage : BuilderArgs -> World -> Outcome ForeignExc Agent * World;
  get_scholar : BuilderArgs -> World -> Outcome ForeignExc Agent * World;
  (** [await agent.arun(message, stream=False)]: the full response *)
  arun : Agent -> string -> World -> Outcome ForeignExc RunResponse * World;
  (** [await agent.arun(message, stream=True)]: an asynchronous iterator
      of chunks *)
  arun_stream : Agent -> string -> World -> Outcome ForeignExc AsyncIter * World;
  (** one step of [async for]: the next chunk and the advanced iterator,
      or [None] when the iterator is exhausted *)
  anext : AsyncIter -> World -> Outcome ForeignExc (option (Chunk * AsyncIter)) * World
}.

Section Factory.
Context {X : Externals}.

(** The external calls a computation makes, in order. *)
Inductive Event :=
| CallGetSage (args : BuilderArgs)
| CallGetScholar (args : BuilderArgs)
| CallArun (agent : Agent) (message : string) (stream : bool).

Record St := { world : World; calls : list Event }.

Definition M (E A : Type) : Type := Eff St E A.

Definition logged {A : Type} (ev : Event)
    (f : World -> Outcome ForeignExc A * World) : M ForeignExc A :=
  fun s =>
    let (r, w) := f (world s) in
    (r, {| world := w; calls := calls s ++ [ev] |}).

Definition call_get_sage (args : BuilderArgs) : M ForeignExc Agent :=
  logged (CallGetSage args) (get_sage args).

Definition call_get_scholar (args : BuilderArgs) : M ForeignExc Agent :=
  logged (CallGetScholar args) (get_scholar args).

Definition call_arun (agent : Agent) (message : string) : M ForeignExc RunResponse :=
  logged (CallArun agent message false) (arun agent message).

Definition call_arun_stream (agent : Agent) (message : string) : M ForeignExc AsyncIter :=
  logged (CallArun agent message true) (arun_stream agent message).

Definition call_anext (it : AsyncIter) : M ForeignExc (option (Chunk * AsyncIter)) :=
  fun s =>
    let (r, w) := anext it (world s) in
    (r, {| world := w; calls := calls s |}).

(** Reading the log: the builder calls in it, and the run calls in it. *)
Inductive Builder := SageBuilder | ScholarBuilder.

Definition builder_calls (log : list Event) : list (Builder * BuilderArgs) :=
  flat_map (fun ev =>
              match ev with
              | CallGetSage args => [(SageBuilder, args)]
              | CallGetScholar args => [(ScholarBuilder, args)]
              | CallArun _ _ _ => []
              end) log.

Definition run_calls (log : list Event) : list (Agent * string * bool) :=
  flat_map (fun ev =>
              match ev with
              | CallArun agent message stream => [(agent, message, stream)]
              | _ => []
              end) log.

(** The arguments of a call of [get_agent]; [None] is an argument the call
    site leaves out. *)
Record get_agent_kwargs := {
  kw_model_id : option string;
  kw_agent_id : option PyVal;
  kw_user_id : option (option string);
  kw_session_id : option (option string);
  kw_debug_mode : option bool
}.

Definition get_agent (kw : get_agent_kwargs) : M ForeignExc Agent :=
  let model_id := kwarg (kw_model_id kw) "gpt-4o" in
  let agent_id := kwarg (kw_agent_id kw) VNone in
  let user_id := kwarg (kw_user_id kw) None in
  let session_id := kwarg (kw_session_id kw) None in
  let debug_mode := kwarg (kw_debug_mode kw) true in
  if py_eq agent_id (VAgentType SAGE)
  then call_get_sage (Build_BuilderArgs model_id user_id session_id debug_mode)
  else call_get_scholar (Build_BuilderArgs model_id user_id session_id debug_mode).

(** For stating what reaches a builder: the arguments [get_agent] hands
    over, and the builder that belongs to a validated [agent_id]. *)
Definition get_agent_builder_args (kw : get_agent_kwargs) : BuilderArgs :=
  {| model_id := kwarg (kw_model_id kw) "gpt-4o";
     user_id := kwarg (kw_user_id kw) None;
     session_id := kwarg (kw_session_id kw) None;
     debug_mode := kwarg (kw_debug_mode kw) true |}.

Definition builder_of (agent_id : AgentType) : Builder :=
  match agent_id with
  | SAGE => SageBuilder
  | SCHOLAR => ScholarBuilder
  end.

End Factory.

End Operator.

(** ** api/routes/agents.py *)
Module Routes.
Import Py Operator.

Definition HTTP_200_OK : Z := 200.
Definition HTTP_404_NOT_FOUND : Z := 404.

(** The status the route decorator of [run_agent] declares. *)
Definition run_agent_status_code : Z := HTTP_200_OK.

Definition model_list : list (string * ModelProvider) := get_available_models.

(** The mapping handed to [Enum('Model', ...)]: member name to value.  It
    is evaluated once, as the module is when it is imported. *)
Definition Model_members : list (string * string) :=
  Eval vm_compute in
    dict_of
      (map (fun '(model_id, _) =>
              (replace (replace model_id "-" "_") "." "_", model_id))
           model_list).

(** The member name the comprehension gives a model identifier, and the
    comprehension over any catalog; [Model_members] is this mapping at
    [model_list]. *)
Definition Model_member_name (model_id : string) : string :=
  replace (replace model_id "-" "_") "." "_".

(** For stating it: the character a member name has in place of [x]. *)
Definition name_char (x : ascii) : ascii :=
  if Ascii.eqb x "-" then "_"%char
  else if Ascii.eqb x "." then "_"%char
  else x.

Definition Model_mapping (catalog : list (string * ModelProvider))
  : list (string * string) :=
  dict_of
    (map (fun '(model_id, _) => (Model_member_name model_id, model_id)) catalog).

Definition is_Model_member (nv : string * string) : bool :=
  existsb (fun m => String.eqb (fst m) (fst nv) && String.eqb (snd m) (snd nv))
    Model_members.

(** A member of the [Model] enum: one of the (name, value) pairs above. *)
Definition Model : Type := { nv : string * string | is_Model_member nv = true }.

Definition Model_name (m : Model) : string := fst (proj1_sig m).
Definition Model_value (m : Model) : string := snd (proj1_sig m).

Definition Model_check (nv : string * string) : option Model :=
  match bool_dec (is_Model_member nv) true with
  | left H => Some (exist _ nv H)
  | right _ => None
  end.

(** [Model(v)]: the member whose value is [v], if any. *)
Definition Model_of_value (v : string) : option Model :=
  match find (fun m => String.eqb (snd m) v) Model_members with
  | Some nv => Model_check nv
  | None => None
  end.

(** [Model.gpt_4o] *)
Definition Model_gpt_4o : Model := exist _ ("gpt_4o", "gpt-4o") eq_refl.

Definition list_agents : list string := get_available_agents.

Record ModelInfo := { id : string; provider : string }.

Definition list_models : list ModelInfo :=
  map (fun '(model_id, provider) =>
         {| id := model_id; provider := ModelProvider_value provider |})
      get_available_models.

Record RunRequest := {
  message : string;
  stream : bool;
  model : Model;
  user_id : option string;
  session_id : option string
}.

(** The defaults of the optional fields of [RunRequest]. *)
Definition RunRequest_default_stream : bool := true.
Definition RunRequest_default_model : Model := Model_gpt_4o.

Section Handlers.
Context {X : Externals}.

(** The generator object of [chat_response_streamer]: created with its
    arguments and no code run; suspended at the [yield] inside the loop;
    or closed. *)
Inductive Streamer :=
| Created (agent : Agent) (message : string)
| Suspended (run_response : AsyncIter)
| Closed.

(** Calling the generator function only creates the generator. *)
Definition chat_response_streamer (agent : Agent) (message : string) : Streamer :=
  Created agent message.

(** The loop [async for chunk in run_response: yield chunk.content], up
    to the next [yield]. *)
Definition streamer_loop (run_response : AsyncIter)
  : M ForeignExc (option (string * Streamer)) :=
  step <- call_anext run_response ;;
  match step with
  | Some (chunk, run_response') =>
      ret (Some (chunk_content chunk, Suspended run_response'))
  | None => ret None
  end.

(** One resumption of the generator. *)
Definition streamer_anext (g : Streamer) : M ForeignExc (option (string * Streamer)) :=
  match g with
  | Created agent message =>
      run_response <- call_arun_stream agent message ;;
      streamer_loop run_response
  | Suspended run_response => streamer_loop run_response
  | Closed => ret None
  end.

(** What [run_agent] returns. *)
Inductive HandlerResult :=
| Content (text : string)
| StreamingResponse (content : Streamer) (media_type : string).

(** What leaves [run_agent] as an exception. *)
Inductive Raised :=
| HTTPException (status_code : Z) (detail : string)
| Propagated (e : ForeignExc).

(** The call of [get_agent] inside [run_agent]: four keyword arguments,
    [debug_mode] left out. *)
Definition run_agent_get_agent (agent_id : AgentType) (body : RunRequest)
  : M ForeignExc Agent :=
  get_agent {| kw_model_id := Some (Model_value (model body));
               kw_agent_id := Some (VAgentType agent_id);
               kw_user_id := Some (user_id body);
               kw_session_id := Some (session_id body);
               kw_debug_mode := None |}.

(** [logger.debug] touches neither the world of the agents nor the call
    log and is left out. *)
Definition run_agent (agent_id : AgentType) (body : RunRequest)
  : M Raised HandlerResult :=
  agent <- try_except
             (run_agent_get_agent agent_id body)
             isinstance_Exception
             (fun e => raise (HTTPException HTTP_404_NOT_FOUND
                                ("Agent not found: " ++ str e)))
             Propagated ;;
  if stream body
  then ret (StreamingResponse (chat_response_streamer agent (message body))
              "text/event-stream")
  else
    response <- uncaught Propagated (call_arun agent (message body)) ;;
    ret (Content (response_content response)).

(** For stating the relay: what the agent's own streaming run delivers to
    a consumer that pulls at most [fuel] chunks (the stream is opened, then
    iterated). *)
Definition agent_stream (agent : Agent) (message : string) (fuel : nat) (s : St)
  : (list Chunk * Ending ForeignExc AsyncIter) * St :=
  match call_arun_stream agent message s with
  | (Return run_response, s1) => consume call_anext fuel run_response s1
  | (Raise e, s1) => (([], Failed e), s1)
  end.

(** For stating what reaches a builder: the keyword arguments a request
    carries to it. *)
Definition run_agent_builder_args (body : RunRequest) : BuilderArgs :=
  {| Operator.model_id := Model_value (model body);
     Operator.user_id := Routes.user_id body;
     Operator.session_id := Routes.session_id body;
     Operator.debug_mode := true |}.

End Handlers.

End Routes.

(** ** The transport layer in front of the handlers *)
Module Transport.
Import Py Operator Routes.

Definition HTTP_422_UNPROCESSABLE_ENTITY : Z := 422.

(** A decoded request body, field by field; [None] is an absent field. *)
Record RawBody := {
  raw_message : option string;
  raw_stream : option bool;
  raw_model : option string;
  raw_user_id : option string;
  raw_session_id : option string
}.

#[warnings="-register-all"] Inductive Json :=
| JString (s : string)
| JArray (items : list Json)
| JObject (fields : list (string * Json)).

Section Endpoints.
Context {X : Externals}.

Inductive HttpBody :=
| JsonBody (j : Json)
| StreamBody (media_type : string) (content : Streamer)
| ErrorDetail (detail : string)
| ValidationErrors.

Record HttpResponse := { status_code : Z; body : HttpBody }.

(** Modelled from the spec: validation of the [agent_id] path value, which
    the web framework performs and the repository does not implement.  The
    path value "must be one of the two enumerated variants"; the handler
    declares it as [AgentType], so it is looked up by value. *)
Definition validate_agent_id (raw : string) : option AgentType :=
  AgentType_of_value raw.

(** Modelled from the spec: validation of the request body against
    [RunRequest], performed by the web framework.  [message] is required;
    [stream] defaults to true and [model] to the first catalog entry; the
    model selector must be a value of the [Model] enumeration. *)
Definition validate_body (raw : RawBody) : option RunRequest :=
  match raw_message raw with
  | None => None
  | Some message =>
      match
        match raw_model raw with
        | None => Some RunRequest_default_model
        | Some v => Model_of_value v
        end
      with
      | None => None
      | Some model =>
          Some {| message := message;
                  stream := kwarg (raw_stream raw) RunRequest_default_stream;
                  model := model;
                  user_id := raw_user_id raw;
                  session_id := raw_session_id raw |}
      end
  end.

(** Modelled from the spec: the route [POST /agents/{agent_id}/runs] as the
    web framework serves it.  Invalid values "are rejected by the transport
    layer's own validation before reaching application logic" with status
    422; otherwise the handler runs, its result is sent with the declared
    status 200, and an [HTTPException] becomes a response with its status
    and a JSON error detail.  Any other exception leaves the handler; the
    spec fixes no response for it. *)
Definition post_agent_runs (raw_agent_id : string) (raw : RawBody)
  : M ForeignExc HttpResponse :=
  match validate_agent_id raw_agent_id, validate_body raw with
  | Some agent_id, Some request =>
      fun s =>
        match run_agent agent_id request s with
        | (Return (Content text), s') =>
            (Return {| status_code := run_agent_status_code;
                       body := JsonBody (JString text) |}, s')
        | (Return (StreamingResponse content media_type), s') =>
            (Return {| status_code := run_agent_status_code;
                       body := StreamBody media_type content |}, s')
        | (Raise (HTTPException code detail), s') =>
            (Return {| status_code := code; body := ErrorDetail detail |}, s')
        | (Raise (Propagated e), s') => (Raise e, s')
        end
  | _, _ =>
      ret {| status_code := HTTP_422_UNPROCESSABLE_ENTITY;
             body := ValidationErrors |}
  end.

(** Modelled from the spec: the route [GET /agents] as the web framework
    serves it, "JSON array of agent-identifier strings. Status 200". *)
Definition get_agents : HttpResponse :=
  {| status_code := HTTP_200_OK;
     body := JsonBody (JArray (map JString list_agents)) |}.

End Endpoints.

End Transport.

(** ** A concrete outside world, for running the definitions *)
Module Demo.
Import Py Operator Routes Transport.

Record EchoAgent := { agent_name : string; agent_args : BuilderArgs }.

(** A response or chunk: its text and the tool calls that came with it. *)
Record EchoResponse := { text : string; tool_calls : list string }.

Definition ValueError (msg : string) : ForeignExc :=
  {| exc_class := Exception_sub "ValueError"; exc_str := msg |}.

Definition KeyboardInterrupt : ForeignExc :=
  {| exc_class := BaseException_only "KeyboardInterrupt"; exc_str := "" |}.

(** The world counts the agents built.  The Sage builder has no Groq
    credentials; the Scholar builder is interrupted for the user
    ["ctrl-c"]; a run echoes its message and fails on an empty one. *)
#[local] Instance echo : Externals := {|
  World := nat;
  Agent := EchoAgent;
  RunResponse := EchoResponse;
  Chunk := EchoResponse;
  AsyncIter := list EchoResponse;
  response_content := text;
  chunk_content := text;
  get_sage := fun args w =>
    match get_model_provider (model_id args) with
    | GROQ => (Raise (ValueError "GROQ_API_KEY not set"), w)
    | OPENAI => (Return {| agent_name := "Sage"; agent_args := args |}, S w)
    end;
  get_scholar := fun args w =>
    match Operator.user_id args with
    | Some "ctrl-c" => (Raise KeyboardInterrupt, w)
    | _ => (Return {| agent_name := "Scholar"; agent_args := args |}, S w)
    end;
  arun := fun agent message w =>
    match message with
    | "" => (Raise (ValueError "empty message"), w)
    | _ => (Return {| text := agent_name agent ++ ": " ++ message;
                      tool_calls := ["search"] |}, w)
    end;
  arun_stream := fun agent message w =>
    (Return [ {| text := agent_name agent; tool_calls := [] |};
              {| text := ": "; tool_calls := ["search"] |};
              {| text := message; tool_calls := [] |} ], w);
  anext := fun it w =>
    match it with
    | [] => (Return None, w)
    | chunk :: it' => (Return (Some (chunk, it')), w)
    end
|}.

Definition start : St := {| world := 0; calls := [] |}.

(** [Model.llama_3_3_70b_versatile] *)
Definition Model_llama_70b : Model :=
  exist _ ("llama_3_3_70b_versatile", "llama-3.3-70b-versatile") eq_refl.

Definition request (message : string) (stream : bool) (model : Model)
    (user_id : option string) : RunRequest :=
  {| message := message; stream := stream; model := model;
     Routes.user_id := user_id; Routes.session_id := None |}.

Definition raw_hello (model : option string) : RawBody :=
  {| raw_message := Some "hello"; raw_stream := Some false;
     raw_model := model; raw_user_id := None; raw_session_id := None |}.

End Demo.

(** * Properties *)

(** ** Strings *)
Section StringFacts.
Import Py.

Lemma prefix_app (p rest : string) : String.prefix p (p ++ rest) = true.
Proof.
  induction p as [|c p IH]; simpl.
  - now destruct rest.
  - destruct (ascii_dec c c) as [_|ne]; [exact IH | now elim ne].
Qed.

Lemma prefix_starts_with (p s : string) :
  String.prefix p s = true <-> starts_with p s.
Proof.
  split.
  - revert s; induction p as [|c p IH]; intros s H.
    + now exists s.
    + destruct s as [|d s]; simpl in H; [discriminate|].
      destruct (ascii_dec c d) as [->|]; [|discriminate].
      destruct (IH _ H) as [rest ->]. now exists rest.
  - intros [rest ->]. apply prefix_app.
Qed.

End StringFacts.

(** ** The operator's pure functions *)
Section OperatorFacts.
Import Py Operator.

(** C2.  [get_model_provider] is a function of its string argument alone
    (pure and total by construction).  Every identifier that starts with
    "llama" or with "mixtral" maps to GROQ and every other string maps to
    OPENAI; the match is case-sensitive, so "Llama" maps to OPENAI, as does
    the empty string. *)
Theorem get_model_provider_prefix_rule :
  (forall model_id,
      starts_with "llama" model_id \/ starts_with "mixtral" model_id ->
      get_model_provider model_id = GROQ) /\
  (forall model_id,
      ~ starts_with "llama" model_id -> ~ starts_with "mixtral" model_id ->
      get_model_provider model_id = OPENAI) /\
  get_model_provider "" = OPENAI /\
  get_model_provider "Llama" = OPENAI /\
  get_model_provider "MIXTRAL-8x7b" = OPENAI.
Proof.
  repeat split; try reflexivity.
  - intros model_id H. unfold get_model_provider, startswith. cbn [existsb].
    destruct H as [H|H]; apply prefix_starts_with in H; rewrite H;
      [reflexivity | now rewrite orb_true_r].
  - intros model_id Hl Hm. unfold get_model_provider, startswith. cbn [existsb].
    destruct (String.prefix "llama" model_id) eqn:El.
    { elim Hl. now apply prefix_starts_with. }
    destruct (String.prefix "mixtral" model_id) eqn:Em.
    { elim Hm. now apply prefix_starts_with. }
    reflexivity.
Qed.

Lemma get_model_provider_prefix_rule_witness :
  get_model_provider "llama-3.3-70b-versatile" = GROQ /\
  get_model_provider "mixtral-8x7b-32768" = GROQ /\
  get_model_provider "gpt-4o" = OPENAI.
Proof.
  destruct get_model_provider_prefix_rule as (Hgroq & Hopenai & _).
  split; [|split].
  - apply Hgroq. left. now exists "-3.3-70b-versatile".
  - apply Hgroq. right. now exists "-8x7b-32768".
  - apply Hopenai; intros [rest H]; discriminate H.
Defined.

(** C6.  [get_available_models] is the fixed list of five catalog entries
    in declaration order, and the provider paired with each identifier is
    the one [get_model_provider] computes for it. *)
Theorem get_available_models_catalog :
  map fst get_available_models =
    ["gpt-4o"; "o3-mini"; "llama-3.3-70b-versatile";
     "llama-3.3-8b-versatile"; "mixtral-8x7b-32768"] /\
  List.length get_available_models = 5 /\
  Forall (fun entry => snd entry = get_model_provider (fst entry))
    get_available_models.
Proof.
  split; [reflexivity | split; [reflexivity|]].
  unfold get_available_models.
  repeat (constructor; [reflexivity|]). constructor.
Qed.

End OperatorFacts.

(** ** The agent factory *)
Section FactoryFacts.
Import Py Operator.
Context {X : Externals}.

Lemma py_eq_SAGE (v : PyVal) :
  py_eq v (VAgentType SAGE) = true <-> v = VAgentType SAGE.
Proof.
  split.
  - destruct v as [| | | |[]|]; simpl; intros H; try discriminate H; reflexivity.
  - intros ->. reflexivity.
Qed.

Lemma builder_calls_app (l l' : list Event) :
  builder_calls (l ++ l') = (builder_calls l ++ builder_calls l')%list.
Proof. apply flat_map_app. Qed.

Lemma run_calls_app (l l' : list Event) :
  run_calls (l ++ l') = (run_calls l ++ run_calls l')%list.
Proof. apply flat_map_app. Qed.

(** What one logged external call does to the state. *)
Lemma logged_eq {A : Type} (ev : Event)
    (f : World -> Outcome ForeignExc A * World) (s : St) :
  logged ev f s =
    (fst (f (world s)),
     {| world := snd (f (world s)); calls := calls s ++ [ev] |}).
Proof. unfold logged. now destruct (f (world s)). Qed.

(** [get_agent] is one logged builder call, whichever branch it takes. *)
Lemma get_agent_eq (kw : get_agent_kwargs) (s : St) :
  let args := get_agent_builder_args kw in
  get_agent kw s =
    if py_eq (kwarg (kw_agent_id kw) VNone) (VAgentType SAGE)
    then (fst (get_sage args (world s)),
          {| world := snd (get_sage args (world s));
             calls := calls s ++ [CallGetSage args] |})
    else (fst (get_scholar args (world s)),
          {| world := snd (get_scholar args (world s));
             calls := calls s ++ [CallGetScholar args] |}).
Proof.
  unfold get_agent, get_agent_builder_args. cbv zeta.
  destruct (py_eq _ _); apply logged_eq.
Qed.

(** C1.  A call of [get_agent] whose [agent_id] equals [AgentType.SAGE]
    is one call of the Sage builder: the result and the new world are the
    builder's, and the call log grows by exactly that call, carrying the
    model, user, session and debug arguments as given (or their declared
    defaults when left out).  With any other [agent_id] (SCHOLAR, None, a
    string, anything else) it is one call of the Scholar builder with the
    same arguments. *)
Theorem get_agent_dispatch (kw : get_agent_kwargs) (s : St) :
  let agent_id := kwarg (kw_agent_id kw) VNone in
  let args :=
    {| model_id := kwarg (kw_model_id kw) "gpt-4o";
       user_id := kwarg (kw_user_id kw) None;
       session_id := kwarg (kw_session_id kw) None;
       debug_mode := kwarg (kw_debug_mode kw) true |} in
  (agent_id = VAgentType SAGE ->
   get_agent kw s =
     (fst (get_sage args (world s)),
      {| world := snd (get_sage args (world s));
         calls := calls s ++ [CallGetSage args] |})) /\
  (agent_id <> VAgentType SAGE ->
   get_agent kw s =
     (fst (get_scholar args (world s)),
      {| world := snd (get_scholar args (world s));
         calls := calls s ++ [CallGetScholar args] |})).
Proof.
  intros agent_id args. rewrite get_agent_eq. fold agent_id.
  split; intros H.
  - apply py_eq_SAGE in H. now rewrite H.
  - destruct (py_eq agent_id (VAgentType SAGE)) eqn:E.
    + elim H. now apply py_eq_SAGE.
    + reflexivity.
Qed.

End FactoryFacts.

Section FactoryExamples.
Import Py Operator Demo.
#[local] Existing Instance echo.

(** [get_agent] on the concrete world: the enum member builds a Sage; the
    string "sage" is an unrecognized value and builds a Scholar. *)
Lemma get_agent_dispatch_witness :
  let given (agent_id : PyVal) :=
    {| kw_model_id := Some "o3-mini";
       kw_agent_id := Some agent_id;
       kw_user_id := Some (Some "u1");
       kw_session_id := None;
       kw_debug_mode := Some false |} in
  let args :=
    {| model_id := "o3-mini"; user_id := Some "u1"; session_id := None;
       debug_mode := false |} in
  get_agent (given (VAgentType SAGE)) start =
    (Return {| agent_name := "Sage"; agent_args := args |},
     {| world := 1; calls := [CallGetSage args] |}) /\
  get_agent (given (VStr "sage")) start =
    (Return {| agent_name := "Scholar"; agent_args := args |},
     {| world := 1; calls := [CallGetScholar args] |}).
Proof.
  intros given args. split.
  - exact (proj1 (get_agent_dispatch (given (VAgentType SAGE)) start) eq_refl).
  - refine (proj2 (get_agent_dispatch (given (VStr "sage")) start) _).
    discriminate.
Defined.

End FactoryExamples.

(** ** The streaming relay *)
Section StreamingFacts.
Import Py Operator Routes.
Context {X : Externals}.

(** Once the relay is inside its loop it moves in step with the
    iterator it reads. *)
Lemma consume_suspended (fuel : nat) (run_response : AsyncIter) (s : St) :
  consume streamer_anext fuel (Suspended run_response) s =
    let '((chunks, ending), s') := consume call_anext fuel run_response s in
    ((map chunk_content chunks, Ending_map Suspended ending), s').
Proof.
  revert run_response s.
  induction fuel as [|n IH]; intros run_response s.
  - reflexivity.
  - cbn [consume streamer_anext]. unfold streamer_loop, bind.
    destruct (call_anext run_response s) as [[[[chunk it']|]|e] s1]; cbn.
    + rewrite IH.
      now destruct (consume call_anext n it' s1) as [[chunks ending] s2].
    + reflexivity.
    + reflexivity.
Qed.

(** C3.  For every agent, message and number of pulls, iterating the
    generator of [chat_response_streamer] delivers the [content] of each
    chunk of the agent's streaming run, one for one and in the order
    produced: the delivered list is the chunk list mapped through
    [chunk_content], the iteration ends as the agent's stream ends
    (exhausted, failed with the same exception, or still live), and the
    outside world and call log end up the same. *)
Theorem chat_response_streamer_relays
    (agent : Agent) (message : string) (n : nat) (s : St) :
  consume streamer_anext (S n) (chat_response_streamer agent message) s =
    let '((chunks, ending), s') := agent_stream agent message (S n) s in
    ((map chunk_content chunks, Ending_map Suspended ending), s').
Proof.
  unfold agent_stream, chat_response_streamer.
  cbn [consume streamer_anext]. unfold bind at 1.
  destruct (call_arun_stream agent message s) as [[run_response|e] s1].
  - change (consume streamer_anext (S n) (Suspended run_response) s1 =
            let '((chunks, ending), s') :=
              consume call_anext (S n) run_response s1 in
            ((map chunk_content chunks, Ending_map Suspended ending), s')).
    apply consume_suspended.
  - reflexivity.
Qed.

End StreamingFacts.

Section StreamingExamples.
Import Py Operator Routes Demo.
#[local] Existing Instance echo.

(** The relay on the concrete world: three chunks in, three texts out. *)
Example chat_response_streamer_echo :
  let sage := {| agent_name := "Sage"; agent_args := Build_BuilderArgs "gpt-4o" None None true |} in
  fst (consume streamer_anext 5 (chat_response_streamer sage "hello") start) =
    (["Sage"; ": "; "hello"], Completed).
Proof. reflexivity. Qed.

End StreamingExamples.

(** ** The run handler *)
Section HandlerFacts.
Import Py Operator Routes.
Context {X : Externals}.

(** Construction inside [run_agent] is one builder call: it adds that
    call to the log and nothing else. *)
Lemma run_agent_get_agent_calls (agent_id : AgentType) (body : RunRequest) (s : St) :
  exists ev,
    calls (snd (run_agent_get_agent agent_id body s)) = (calls s ++ [ev])%list /\
    builder_calls [ev] = [(builder_of agent_id, run_agent_builder_args body)] /\
    run_calls [ev] = [].
Proof.
  unfold run_agent_get_agent. rewrite get_agent_eq.
  destruct agent_id.
  - exists (CallGetSage (run_agent_builder_args body)). now cbn.
  - exists (CallGetScholar (run_agent_builder_args body)). now cbn.
Qed.

(** [run_agent], one case per path through its body. *)
Lemma run_agent_eq (agent_id : AgentType) (body : RunRequest) (s : St) :
  run_agent agent_id body s =
    match run_agent_get_agent agent_id body s with
    | (Raise e, s1) =>
        if isinstance_Exception e
        then (Raise (HTTPException HTTP_404_NOT_FOUND
                       ("Agent not found: " ++ str e)), s1)
        else (Raise (Propagated e), s1)
    | (Return agent, s1) =>
        if stream body
        then (Return (StreamingResponse
                        (chat_response_streamer agent (message body))
                        "text/event-stream"), s1)
        else
          match call_arun agent (message body) s1 with
          | (Return response, s2) =>
              (Return (Content (response_content response)), s2)
          | (Raise e, s2) => (Raise (Propagated e), s2)
          end
    end.
Proof.
  unfold run_agent, bind, try_except, uncaught, raise, ret.
  destruct (run_agent_get_agent agent_id body s) as [[agent|e] s1].
  - destruct (stream body); [reflexivity|].
    now destruct (call_arun agent (message body) s1) as [[response|e] s2].
  - now destruct (isinstance_Exception e).
Qed.

(** C4, as the code has it.  When the construction of the agent raises an
    exception that is an instance of [Exception], [run_agent] raises an
    [HTTPException] with status 404 whose detail is "Agent not found: "
    followed by the message of that exception; and whatever the
    construction raises, no run of an agent is invoked and no streaming
    response is returned. *)
Theorem run_agent_construction_failure
    (agent_id : AgentType) (body : RunRequest) (s s1 : St) (e : ForeignExc) :
  run_agent_get_agent agent_id body s = (Raise e, s1) ->
  (isinstance_Exception e = true ->
   run_agent agent_id body s =
     (Raise (HTTPException 404 ("Agent not found: " ++ str e)), s1)) /\
  run_calls (calls (snd (run_agent agent_id body s))) = run_calls (calls s) /\
  (forall result, fst (run_agent agent_id body s) <> Return result).
Proof.
  intros H.
  pose proof (run_agent_get_agent_calls agent_id body s) as (ev & Hc & _ & Hr).
  rewrite H in Hc. cbn [snd] in Hc.
  rewrite run_agent_eq, H.
  split; [|split].
  - now intros ->.
  - destruct (isinstance_Exception e); cbn [snd];
      rewrite Hc, run_calls_app, Hr; apply app_nil_r.
  - intros result. now destruct (isinstance_Exception e).
Qed.

(** C5, as the code has it.  When [stream] is false and the agent is
    constructed, [run_agent] invokes the agent's run once, with the
    request's message and [stream=False], and never the streaming run.  If
    that run completes with a response, [run_agent] returns the response's
    text content, which the route sends with status 200; if it raises, the
    exception leaves [run_agent] and nothing is returned. *)
Theorem run_agent_non_streaming
    (agent_id : AgentType) (body : RunRequest) (s s1 : St) (agent : Agent) :
  stream body = false ->
  run_agent_get_agent agent_id body s = (Return agent, s1) ->
  let finished := arun agent (message body) (world s1) in
  let s2 :=
    {| world := snd finished;
       calls := calls s1 ++ [CallArun agent (message body) false] |} in
  run_calls (calls (snd (run_agent agent_id body s))) =
    (run_calls (calls s) ++ [(agent, message body, false)])%list /\
  (forall response,
      fst finished = Return response ->
      run_agent agent_id body s =
        (Return (Content (response_content response)), s2)) /\
  (forall e,
      fst finished = Raise e ->
      run_agent agent_id body s = (Raise (Propagated e), s2)) /\
  run_agent_status_code = 200%Z.
Proof.
  intros Hstream H finished s2.
  pose proof (run_agent_get_agent_calls agent_id body s) as (ev & Hc & _ & Hr).
  rewrite H in Hc. cbn [snd] in Hc.
  rewrite run_agent_eq, H, Hstream.
  unfold call_arun. rewrite logged_eq. fold finished. fold s2.
  split; [|split; [|split]].
  - assert (Hs2 : run_calls (calls s2) =
                  (run_calls (calls s) ++ [(agent, message body, false)])%list).
    { unfold s2. cbn [calls]. rewrite run_calls_app, Hc, run_calls_app, Hr.
      now rewrite app_nil_r. }
    now destruct (fst finished).
  - now intros response ->.
  - now intros e ->.
  - reflexivity.
Qed.

(** The builder calls of one request: exactly one, to the builder of the
    request's [agent_id], on every path through [run_agent]. *)
Lemma run_agent_builder_calls (agent_id : AgentType) (body : RunRequest) (s : St) :
  builder_calls (calls (snd (run_agent agent_id body s))) =
    (builder_calls (calls s) ++
     [(builder_of agent_id, run_agent_builder_args body)])%list.
Proof.
  pose proof (run_agent_get_agent_calls agent_id body s) as (ev & Hc & Hb & Hr).
  rewrite run_agent_eq.
  destruct (run_agent_get_agent agent_id body s) as [[agent|e] s1];
    cbn [snd] in Hc.
  - assert (H1 : builder_calls (calls s1) =
                 (builder_calls (calls s) ++
                  [(builder_of agent_id, run_agent_builder_args body)])%list).
    { now rewrite Hc, builder_calls_app, Hb. }
    destruct (stream body); [exact H1|].
    unfold call_arun. rewrite logged_eq.
    destruct (fst (arun agent (message body) (world s1))); cbn [snd calls];
      rewrite builder_calls_app, H1; apply app_nil_r.
  - destruct (isinstance_Exception e); cbn [snd];
      now rewrite Hc, builder_calls_app, Hb.
Qed.

(** C10.  Every request handled by [run_agent] makes exactly one builder
    call, to the builder of its [agent_id], and that call carries
    [debug_mode=True] next to the request's model, user and session,
    whether or not the builder then raises.  The reason is the default of
    [get_agent]: any call of it that leaves [debug_mode] out hands
    [debug_mode=True] to the builder, and [run_agent] leaves it out. *)
Theorem run_agent_debug_mode (agent_id : AgentType) (body : RunRequest) (s : St) :
  builder_calls (calls (snd (run_agent agent_id body s))) =
    (builder_calls (calls s) ++
     [(builder_of agent_id,
       {| Operator.model_id := Model_value (model body);
          Operator.user_id := Routes.user_id body;
          Operator.session_id := Routes.session_id body;
          Operator.debug_mode := true |})])%list /\
  (forall kw s',
      kw_debug_mode kw = None ->
      exists builder args,
        builder_calls (calls (snd (get_agent kw s'))) =
          (builder_calls (calls s') ++ [(builder, args)])%list /\
        debug_mode args = true).
Proof.
  split.
  - apply run_agent_builder_calls.
  - intros kw s' Hkw. rewrite get_agent_eq.
    assert (Hdebug : debug_mode (get_agent_builder_args kw) = true).
    { unfold get_agent_builder_args. cbn [debug_mode]. now rewrite Hkw. }
    destruct (py_eq _ _); cbn [snd calls]; rewrite builder_calls_app.
    + now exists SageBuilder, (get_agent_builder_args kw).
    + now exists ScholarBuilder, (get_agent_builder_args kw).
Qed.

End HandlerFacts.

Section HandlerExamples.
Import Py Operator Routes Demo.
#[local] Existing Instance echo.

(** A Sage on a Groq model cannot be built in the concrete world: the
    [ValueError] of the builder comes back as a 404. *)
Lemma run_agent_construction_failure_witness :
  let body := request "hello" false Model_llama_70b (Some "u1") in
  let s1 :=
    {| world := 0;
       calls := [CallGetSage (Build_BuilderArgs "llama-3.3-70b-versatile"
                                (Some "u1") None true)] |} in
  run_agent SAGE body start =
    (Raise (HTTPException 404 "Agent not found: GROQ_API_KEY not set"), s1) /\
  run_calls (calls (snd (run_agent SAGE body start))) = [].
Proof.
  intros body s1.
  destruct (run_agent_construction_failure SAGE body start s1
              (ValueError "GROQ_API_KEY not set") eq_refl) as (H404 & Hruns & _).
  split; [exact (H404 eq_refl) | exact Hruns].
Defined.

(** C4 fails as stated: the Scholar builder is interrupted, [get_agent]
    raises [KeyboardInterrupt], which is no instance of [Exception];
    [except Exception] does not match it and it leaves [run_agent] as it
    is, so no [HTTPException], of status 404 or any other, is raised. *)
Lemma run_agent_construction_failure_uncaught :
  let body := request "hello" false Model_gpt_4o (Some "ctrl-c") in
  let s1 :=
    {| world := 0;
       calls := [CallGetScholar (Build_BuilderArgs "gpt-4o" (Some "ctrl-c")
                                   None true)] |} in
  run_agent_get_agent SCHOLAR body start = (Raise KeyboardInterrupt, s1) /\
  run_agent SCHOLAR body start = (Raise (Propagated KeyboardInterrupt), s1) /\
  ~ (exists detail s',
        run_agent SCHOLAR body start = (Raise (HTTPException 404 detail), s')).
Proof.
  cbv zeta. split; [reflexivity | split; [reflexivity|]].
  intros (detail & s' & H). vm_compute in H. discriminate H.
Qed.

(** A non-streaming run in the concrete world. *)
Lemma run_agent_non_streaming_witness :
  let body := request "hello" false Model_gpt_4o (Some "u1") in
  let args := Build_BuilderArgs "gpt-4o" (Some "u1") None true in
  let sage := {| agent_name := "Sage"; agent_args := args |} in
  let s1 := {| world := 1; calls := [CallGetSage args] |} in
  run_agent_get_agent SAGE body start = (Return sage, s1) /\
  run_agent SAGE body start =
    (Return (Content "Sage: hello"),
     {| world := 1;
        calls := [CallGetSage args; CallArun sage "hello" false] |}) /\
  run_calls (calls (snd (run_agent SAGE body start))) = [(sage, "hello", false)].
Proof.
  intros body args sage s1.
  destruct (run_agent_non_streaming SAGE body start s1 sage
              eq_refl eq_refl) as (Hruns & Hok & _ & _).
  split; [reflexivity|].
  split; [|exact Hruns].
  exact (Hok {| text := "Sage: hello"; tool_calls := ["search"] |} eq_refl).
Defined.

(** C5 fails as stated: the stream flag is false and the Sage is built,
    but its run raises on the empty message; the exception leaves
    [run_agent] and no text is returned. *)
Lemma run_agent_non_streaming_run_raises :
  let body := request "" false Model_gpt_4o (Some "u1") in
  let args := Build_BuilderArgs "gpt-4o" (Some "u1") None true in
  let sage := {| agent_name := "Sage"; agent_args := args |} in
  stream body = false /\
  run_agent_get_agent SAGE body start =
    (Return sage, {| world := 1; calls := [CallGetSage args] |}) /\
  run_agent SAGE body start =
    (Raise (Propagated (ValueError "empty message")),
     {| world := 1; calls := [CallGetSage args; CallArun sage "" false] |}) /\
  ~ (exists text s', run_agent SAGE body start = (Return (Content text), s')).
Proof.
  cbv zeta. repeat (split; [reflexivity|]).
  intros (text & s' & H). vm_compute in H. discriminate H.
Qed.

(** A streaming request and a bare call of [get_agent] in the concrete
    world: both builders are handed [debug_mode=True]. *)
Lemma run_agent_debug_mode_witness :
  let body := request "hello" true Model_gpt_4o None in
  let kw :=
    {| kw_model_id := None; kw_agent_id := None; kw_user_id := None;
       kw_session_id := None; kw_debug_mode := None |} in
  builder_calls (calls (snd (run_agent SAGE body start))) =
    [(SageBuilder, Build_BuilderArgs "gpt-4o" None None true)] /\
  exists builder args,
    builder_calls (calls (snd (get_agent kw start))) =
      (builder_calls (calls start) ++ [(builder, args)])%list /\
    debug_mode args = true.
Proof.
  intros body kw.
  destruct (run_agent_debug_mode SAGE body start) as [Hrun Hdefault].
  split; [exact Hrun | exact (Hdefault kw start eq_refl)].
Defined.

End HandlerExamples.

(** ** The endpoints *)
Section EndpointFacts.
Import Py Operator Routes Transport.
Context {X : Externals}.

Lemma AgentType_of_value_eq (v : string) :
  AgentType_of_value v =
    if String.eqb "sage" v then Some SAGE
    else if String.eqb "scholar" v then Some SCHOLAR
    else None.
Proof. reflexivity. Qed.

Lemma AgentType_of_value_unknown (v : string) :
  v <> "sage" -> v <> "scholar" -> AgentType_of_value v = None.
Proof.
  intros Hsage Hscholar. rewrite AgentType_of_value_eq.
  destruct (String.eqb_spec "sage" v); [congruence|].
  destruct (String.eqb_spec "scholar" v); [congruence|].
  reflexivity.
Qed.

(** The members of the [Model] enum, as the module computes them. *)
Lemma Model_members_eq :
  Model_members =
    [ ("gpt_4o", "gpt-4o");
      ("o3_mini", "o3-mini");
      ("llama_3_3_70b_versatile", "llama-3.3-70b-versatile");
      ("llama_3_3_8b_versatile", "llama-3.3-8b-versatile");
      ("mixtral_8x7b_32768", "mixtral-8x7b-32768") ].
Proof. vm_compute. reflexivity. Qed.

(** No two catalog entries share a member name or a value: every entry is
    a member of its own, none an alias of another. *)
Lemma Model_members_distinct :
  NoDup (map fst Model_members) /\ NoDup (map snd Model_members).
Proof.
  rewrite Model_members_eq. cbn [map fst snd].
  split;
    repeat (constructor;
            [cbn; intros H;
             repeat (destruct H as [H|H]; [discriminate H|]); exact H|]);
    constructor.
Qed.

Lemma Model_members_values :
  map snd Model_members = map fst get_available_models.
Proof. vm_compute. reflexivity. Qed.

(** Every member of [Model] has a catalog identifier as its value. *)
Lemma Model_value_in_catalog (m : Model) :
  In (Model_value m) (map fst get_available_models).
Proof.
  destruct m as [nv H]. unfold Model_value. cbn [proj1_sig].
  unfold is_Model_member in H. apply existsb_exists in H.
  destruct H as (m & Hin & Heq).
  apply andb_true_iff in Heq. destruct Heq as [_ Heq].
  apply String.eqb_eq in Heq. rewrite <- Heq, <- Model_members_values.
  exact (in_map snd _ _ Hin).
Qed.

(** A string outside the catalog is the value of no member. *)
Lemma Model_of_value_unknown (v : string) :
  ~ In v (map fst get_available_models) -> Model_of_value v = None.
Proof.
  intros Hv. unfold Model_of_value.
  destruct (find (fun m => String.eqb (snd m) v) Model_members) as [nv|] eqn:E;
    [|reflexivity].
  apply find_some in E. destruct E as [Hin Heq].
  apply String.eqb_eq in Heq. elim Hv.
  rewrite <- Heq, <- Model_members_values. exact (in_map snd _ _ Hin).
Qed.

(** A request that fails validation is answered 422 and the state is
    left as it was: the handler did not run. *)
Lemma post_agent_runs_rejected (raw_agent_id : string) (raw : RawBody) (s : St) :
  validate_agent_id raw_agent_id = None \/ validate_body raw = None ->
  post_agent_runs raw_agent_id raw s =
    (Return {| status_code := 422; body := ValidationErrors |}, s).
Proof.
  unfold post_agent_runs.
  intros [H|H]; rewrite H; [|destruct (validate_agent_id raw_agent_id)];
    reflexivity.
Qed.

(** The state after a request is the state [run_agent] leaves, or the
    initial one when the request is rejected. *)
Lemma post_agent_runs_state (raw_agent_id : string) (raw : RawBody) (s : St) :
  snd (post_agent_runs raw_agent_id raw s) =
    match validate_agent_id raw_agent_id, validate_body raw with
    | Some agent_id, Some request => snd (run_agent agent_id request s)
    | _, _ => s
    end.
Proof.
  unfold post_agent_runs.
  destruct (validate_agent_id raw_agent_id) as [agent_id|]; [|reflexivity].
  destruct (validate_body raw) as [request|]; [|reflexivity].
  now destruct (run_agent agent_id request s) as [[[text|g mt]|[code d|e]] s'].
Qed.

(** C7.  [get_available_agents] is the list "sage", "scholar" in that
    order; [list_agents] returns that list as it is, and the route
    [GET /agents] sends it with status 200. *)
Theorem get_available_agents_list :
  get_available_agents = ["sage"; "scholar"] /\
  list_agents = get_available_agents /\
  get_agents =
    {| status_code := 200;
       body := JsonBody (JArray [JString "sage"; JString "scholar"]) |}.
Proof. repeat split. Qed.

(** C8.  A [POST /agents/{agent_id}/runs] whose path value is neither
    "sage" nor "scholar" is answered with status 422 by the transport
    layer, whatever the body; the world and the call log are untouched, so
    [run_agent] did not execute and no builder was called. *)
Theorem post_agent_runs_invalid_agent_id
    (raw_agent_id : string) (raw : RawBody) (s : St) :
  raw_agent_id <> "sage" ->
  raw_agent_id <> "scholar" ->
  post_agent_runs raw_agent_id raw s =
    (Return {| status_code := 422; body := ValidationErrors |}, s) /\
  builder_calls (calls (snd (post_agent_runs raw_agent_id raw s))) =
    builder_calls (calls s).
Proof.
  intros Hsage Hscholar.
  assert (H : post_agent_runs raw_agent_id raw s =
              (Return {| status_code := 422; body := ValidationErrors |}, s)).
  { apply post_agent_runs_rejected. left.
    now apply AgentType_of_value_unknown. }
  split; [exact H | now rewrite H].
Qed.

(** C9.  The [model] of every [RunRequest] is a member of the enum built
    from [get_available_models], so its value is one of the five catalog
    identifiers; every builder call made while serving a run request
    therefore carries a catalog identifier as [model_id]; and a request
    whose model string is not in the catalog is answered 422 with the
    state untouched, before [get_agent] is called. *)
Theorem run_request_model_in_catalog :
  let catalog := map fst get_available_models in
  (forall body : RunRequest, In (Model_value (model body)) catalog) /\
  (forall raw_agent_id raw s,
      exists new,
        builder_calls (calls (snd (post_agent_runs raw_agent_id raw s))) =
          (builder_calls (calls s) ++ new)%list /\
        Forall (fun c => In (model_id (snd c)) catalog) new) /\
  (forall raw_agent_id raw s v,
      raw_model raw = Some v ->
      ~ In v catalog ->
      post_agent_runs raw_agent_id raw s =
        (Return {| status_code := 422; body := ValidationErrors |}, s)).
Proof.
  intros catalog. split; [|split].
  - intros body. apply Model_value_in_catalog.
  - intros raw_agent_id raw s. rewrite post_agent_runs_state.
    destruct (validate_agent_id raw_agent_id) as [agent_id|].
    + destruct (validate_body raw) as [request|].
      * exists [(builder_of agent_id, run_agent_builder_args request)].
        split; [apply run_agent_builder_calls|].
        constructor; [apply Model_value_in_catalog | constructor].
      * exists []. now rewrite app_nil_r.
    + exists []. now rewrite app_nil_r.
  - intros raw_agent_id raw s v Hv Hout.
    apply post_agent_runs_rejected. right.
    unfold validate_body. rewrite Hv, (Model_of_value_unknown v Hout).
    now destruct (raw_message raw).
Qed.

End EndpointFacts.

Section EndpointExamples.
Import Py Operator Routes Transport Demo.
#[local] Existing Instance echo.

(** A valid request reaches the handler: [POST /agents/sage/runs] with
    the default model builds a Sage and answers 200 with its text. *)
Example post_agent_runs_sage_hello :
  fst (post_agent_runs "sage" (raw_hello None) start) =
    Return {| status_code := 200; body := JsonBody (JString "Sage: hello") |}.
Proof. reflexivity. Qed.

(** With stream left out the answer is the un-started generator of the
    relay, sent as an event stream. *)
Example post_agent_runs_scholar_stream :
  fst (post_agent_runs "scholar"
         {| raw_message := Some "hello"; raw_stream := None;
            raw_model := Some "o3-mini"; raw_user_id := None;
            raw_session_id := None |} start) =
    Return {| status_code := 200;
              body := StreamBody "text/event-stream"
                        (Created {| agent_name := "Scholar";
                                    agent_args :=
                                      Build_BuilderArgs "o3-mini" None None true |}
                                 "hello") |}.
Proof. reflexivity. Qed.

(** [POST /agents/bogus/runs]: 422 and nothing built. *)
Lemma post_agent_runs_invalid_agent_id_witness :
  post_agent_runs "bogus" (raw_hello None) start =
    (Return {| status_code := 422; body := ValidationErrors |}, start) /\
  builder_calls (calls (snd (post_agent_runs "bogus" (raw_hello None) start))) =
    builder_calls (calls start).
Proof.
  apply post_agent_runs_invalid_agent_id; discriminate.
Defined.

(** A model string that is no catalog identifier, even for a valid agent:
    422 and nothing built. *)
Lemma run_request_model_in_catalog_witness :
  post_agent_runs "sage" (raw_hello (Some "gpt-5")) start =
    (Return {| status_code := 422; body := ValidationErrors |}, start).
Proof.
  refine (proj2 (proj2 run_request_model_in_catalog)
            "sage" (raw_hello (Some "gpt-5")) start "gpt-5" eq_refl _).
  cbn. intros H. repeat (destruct H as [H|H]; [discriminate H|]). exact H.
Defined.

End EndpointExamples.

(** * Further properties of the code *)

(** ** The enumerations and the catalog *)
Section EnumFacts.
Import Py Operator Routes.

Lemma prefix_empty (s : string) : String.prefix "" s = true.
Proof. now destruct s. Qed.

Lemma append_assoc (a b c : string) : (a ++ b) ++ c = a ++ (b ++ c).
Proof. induction a as [|x a IH]; simpl; [reflexivity | now rewrite IH]. Qed.

(** Replacing one character by another is a character-wise rewrite. *)
Lemma replace_char (c d : ascii) (s : string) :
  replace s (String c "") (String d "") =
    map_chars (fun x => if Ascii.eqb x c then d else x) s.
Proof.
  unfold replace.
  induction s as [|x rest IH]; [reflexivity|].
  cbn [replace_from String.prefix map_chars].
  destruct (ascii_dec c x) as [->|ne].
  - rewrite prefix_empty, Ascii.eqb_refl. cbn. now rewrite IH.
  - assert (E : Ascii.eqb x c = false).
    { apply Ascii.eqb_neq. congruence. }
    rewrite E. now rewrite IH.
Qed.

Lemma map_chars_map_chars (f g : ascii -> ascii) (s : string) :
  map_chars g (map_chars f s) = map_chars (fun x => g (f x)) s.
Proof. induction s as [|x s IH]; simpl; [reflexivity | now rewrite IH]. Qed.

Lemma map_chars_length (f : ascii -> ascii) (s : string) :
  String.length (map_chars f s) = String.length s.
Proof. induction s as [|x s IH]; simpl; [reflexivity | now rewrite IH]. Qed.

Lemma map_chars_list (f : ascii -> ascii) (s : string) :
  list_ascii_of_string (map_chars f s) = map f (list_ascii_of_string s).
Proof. induction s as [|x s IH]; simpl; [reflexivity | now rewrite IH]. Qed.

Lemma Model_member_name_eq (model_id : string) :
  Model_member_name model_id = map_chars name_char model_id.
Proof.
  unfold Model_member_name.
  change "-" with (String "-"%char "").
  change "." with (String "."%char "").
  change "_" with (String "_"%char "").
  rewrite !replace_char, map_chars_map_chars.
  clear. induction model_id as [|x s IH]; [reflexivity|].
  cbn [map_chars]. rewrite IH. f_equal.
  unfold name_char. destruct (Ascii.eqb x "-") eqn:E; [reflexivity|].
  reflexivity.
Qed.

(** X1.  The name the [Model] enum gives a model identifier is the
    identifier with every "-" and every "." turned into "_" and every
    other character kept in place: it has the identifier's length and
    contains neither "-" nor ".". *)
Theorem Model_member_name_identifier (model_id : string) :
  Model_member_name model_id = map_chars name_char model_id /\
  String.length (Model_member_name model_id) = String.length model_id /\
  ~ In "-"%char (list_ascii_of_string (Model_member_name model_id)) /\
  ~ In "."%char (list_ascii_of_string (Model_member_name model_id)).
Proof.
  rewrite Model_member_name_eq, map_chars_length, map_chars_list.
  repeat split; intros H; apply in_map_iff in H; destruct H as (x & Hx & _);
    unfold name_char in Hx;
    destruct (Ascii.eqb x "-") eqn:E1; try discriminate Hx;
    destruct (Ascii.eqb x ".") eqn:E2; try discriminate Hx;
    subst x; discriminate.
Qed.

(** *** The dict of the comprehension *)

Lemma dict_set_keys {V : Type} (d : list (string * V)) (k : string) (v : V) :
  map fst (dict_set d k v) =
    if in_dec string_dec k (map fst d) then map fst d
    else (map fst d ++ [k])%list.
Proof.
  induction d as [|[k' v'] d IH]; cbn [dict_set map fst].
  - now destruct (in_dec string_dec k []).
  - destruct (String.eqb_spec k' k) as [->|ne]; cbn [map fst].
    + destruct (in_dec string_dec k (k :: map fst d)) as [_|n];
        [reflexivity | elim n; now left].
    + rewrite IH.
      destruct (in_dec string_dec k (map fst d)) as [i|n];
        destruct (in_dec string_dec k (k' :: map fst d)) as [i'|n'];
        try reflexivity.
      * elim n'. now right.
      * destruct i' as [e|i']; [congruence | contradiction].
Qed.

Lemma dict_set_fresh {V : Type} (d : list (string * V)) (k : string) (v : V) :
  ~ In k (map fst d) -> dict_set d k v = (d ++ [(k, v)])%list.
Proof.
  induction d as [|[k' v'] d IH]; cbn [dict_set map fst app]; intros H.
  - reflexivity.
  - destruct (String.eqb_spec k' k) as [->|ne].
    + elim H. now left.
    + rewrite IH; [reflexivity|]. intros i. apply H. now right.
Qed.

Lemma dict_set_NoDup {V : Type} (d : list (string * V)) (k : string) (v : V) :
  NoDup (map fst d) -> NoDup (map fst (dict_set d k v)).
Proof.
  intros H. rewrite dict_set_keys.
  destruct (in_dec string_dec k (map fst d)) as [i|n]; [exact H|].
  apply NoDup_app; [exact H | repeat constructor; intros [] | ].
  intros x Hx [<-|[]]. contradiction.
Qed.

Lemma dict_set_values {V : Type} (d : list (string * V)) (k : string) (v : V)
    (kv : string * V) :
  In kv (dict_set d k v) -> snd kv = v \/ In kv d.
Proof.
  induction d as [|[k' v'] d IH]; cbn [dict_set].
  - intros [<-|[]]. now left.
  - destruct (String.eqb k' k).
    + intros [<-|H]; [now left | right; now right].
    + intros [<-|H]; [right; now left|].
      destruct (IH H) as [e|i]; [now left | right; now right].
Qed.

Lemma dict_of_acc {V : Type} (items acc : list (string * V)) :
  NoDup (map fst acc) ->
  let d := fold_left (fun d kv => dict_set d (fst kv) (snd kv)) items acc in
  NoDup (map fst d) /\
  (forall kv, In kv d -> In kv acc \/ In (snd kv) (map snd items)) /\
  (NoDup (map fst acc ++ map fst items) -> d = (acc ++ items)%list).
Proof.
  revert acc. induction items as [|[k v] items IH]; intros acc Hacc; cbn zeta.
  - cbn [fold_left]. repeat split; [exact Hacc | now left |].
    intros _. now rewrite app_nil_r.
  - cbn [fold_left fst snd].
    destruct (IH (dict_set acc k v) (dict_set_NoDup acc k v Hacc))
      as (Hnd & Hval & Heq).
    repeat split; [exact Hnd | |].
    + intros kv Hkv. destruct (Hval kv Hkv) as [Hin|Hin].
      * destruct (dict_set_values _ _ _ _ Hin) as [e|i];
          [right; left; now symmetry | now left].
      * right. now right.
    + intros Hall. cbn [map fst] in Hall.
      assert (Hk : ~ In k (map fst acc)).
      { intros i. apply NoDup_remove_2 in Hall. apply Hall.
        apply in_or_app. now left. }
      rewrite Heq; rewrite (dict_set_fresh acc k v Hk).
      * now rewrite <- app_assoc.
      * rewrite map_app. cbn [map fst]. rewrite <- app_assoc. exact Hall.
Qed.

(** X2.  Whatever the catalog, the mapping the [Model] enum is built from
    has pairwise distinct member names and only catalog identifiers as
    values; and when the catalog's identifiers give pairwise distinct
    names, the mapping has one member per catalog entry, in catalog order.
    Without that an entry is lost: "a-b" and "a.b" share the name "a_b",
    which keeps the later identifier. *)
Theorem Model_mapping_covers (catalog : list (string * ModelProvider)) :
  NoDup (map fst (Model_mapping catalog)) /\
  (forall nv, In nv (Model_mapping catalog) -> In (snd nv) (map fst catalog)) /\
  (NoDup (map (fun entry => Model_member_name (fst entry)) catalog) ->
   Model_mapping catalog =
     map (fun entry => (Model_member_name (fst entry), fst entry)) catalog) /\
  Model_mapping [("a-b", OPENAI); ("a.b", GROQ)] = [("a_b", "a.b")] /\
  Model_members = Model_mapping model_list.
Proof.
  assert (Hmap : map (fun '(model_id, _) => (Model_member_name model_id, model_id))
                   catalog =
                 map (fun entry => (Model_member_name (fst entry), fst entry))
                   catalog).
  { apply map_ext. now intros [model_id provider]. }
  unfold Model_mapping at 1 2 3, dict_of. rewrite Hmap.
  destruct (dict_of_acc
              (map (fun entry => (Model_member_name (fst entry), fst entry)) catalog)
              [] (NoDup_nil _)) as (Hnd & Hval & Heq).
  cbv zeta in Hnd, Hval, Heq.
  split; [exact Hnd | split; [|split; [|split]]].
  - intros nv Hnv. destruct (Hval nv Hnv) as [[]|Hin].
    rewrite map_map in Hin. exact Hin.
  - intros Hnames. apply Heq. cbn [map app]. now rewrite map_map.
  - vm_compute. reflexivity.
  - vm_compute. reflexivity.
Qed.

(** The shipped catalog has pairwise distinct names, so each of its five
    entries is a member. *)
Lemma Model_mapping_covers_witness :
  Model_mapping get_available_models =
    map (fun entry => (Model_member_name (fst entry), fst entry))
      get_available_models.
Proof.
  refine (proj1 (proj2 (proj2 (Model_mapping_covers get_available_models))) _).
  vm_compute.
  repeat (constructor;
          [cbn; intros H;
           repeat (destruct H as [H|H]; [discriminate H|]); exact H|]).
  constructor.
Defined.

(** *** Looking members up by value *)

Lemma Model_check_member (nv : string * string) (H : is_Model_member nv = true) :
  Model_check nv = Some (exist _ nv H).
Proof.
  unfold Model_check.
  destruct (bool_dec (is_Model_member nv) true) as [H'|n]; [|contradiction].
  do 2 f_equal. apply UIP_dec, bool_dec.
Qed.

Lemma is_Model_member_In (nv : string * string) :
  is_Model_member nv = true <-> In nv Model_members.
Proof.
  unfold is_Model_member. rewrite existsb_exists. split.
  - intros (m & Hin & Heq). apply andb_true_iff in Heq.
    destruct Heq as [Hn Hv].
    apply String.eqb_eq in Hn. apply String.eqb_eq in Hv.
    destruct m, nv. cbn in Hn, Hv. now subst.
  - intros Hin. exists nv. now rewrite !String.eqb_refl.
Qed.

Lemma find_by_value (l : list (string * string)) (nv : string * string) :
  NoDup (map snd l) -> In nv l ->
  find (fun m => String.eqb (snd m) (snd nv)) l = Some nv.
Proof.
  induction l as [|m l IH]; intros Hnd Hin; [destruct Hin|].
  cbn [find]. inversion Hnd as [|x xs Hx Hnd']; subst.
  destruct Hin as [->|Hin].
  - now rewrite String.eqb_refl.
  - destruct (String.eqb_spec (snd m) (snd nv)) as [e|ne].
    + elim Hx. rewrite e. now apply in_map.
    + now apply IH.
Qed.

Lemma Model_of_value_member (m : Model) : Model_of_value (Model_value m) = Some m.
Proof.
  destruct m as [nv H]. unfold Model_of_value, Model_value. cbn [proj1_sig].
  rewrite (find_by_value Model_members nv (proj2 Model_members_distinct)
             (proj1 (is_Model_member_In nv) H)).
  apply Model_check_member.
Qed.

Lemma Model_of_value_known (v : string) :
  In v (map fst get_available_models) -> Model_of_value v <> None.
Proof.
  intros Hin. rewrite <- Model_members_values in Hin.
  apply in_map_iff in Hin. destruct Hin as (nv & <- & Hnv).
  apply is_Model_member_In in Hnv.
  change (snd nv) with (Model_value (exist _ nv Hnv)).
  rewrite Model_of_value_member. discriminate.
Qed.

(** X3.  Looking a [Model] member up by its value gives that member back;
    a successful lookup of a string gives a member with that string as its
    value; and the strings that have a member are exactly the identifiers
    of the catalog, none lost and none added. *)
Theorem Model_of_value_round_trip :
  (forall m : Model, Model_of_value (Model_value m) = Some m) /\
  (forall v m, Model_of_value v = Some m -> Model_value m = v) /\
  (forall v, In v (map fst get_available_models) <-> Model_of_value v <> None).
Proof.
  split; [exact Model_of_value_member | split].
  - intros v m H. unfold Model_of_value in H.
    destruct (find (fun m0 => String.eqb (snd m0) v) Model_members)
      as [nv|] eqn:E; [|discriminate H].
    apply find_some in E. destruct E as [_ Hv]. apply String.eqb_eq in Hv.
    unfold Model_check in H.
    destruct (bool_dec (is_Model_member nv) true) as [H'|]; [|discriminate H].
    injection H as <-. exact Hv.
  - intros v. split.
    + apply Model_of_value_known.
    + intros Hsome.
      destruct (in_dec string_dec v (map fst get_available_models)) as [i|n];
        [exact i|].
      elim Hsome. now apply Model_of_value_unknown.
Qed.

Lemma Model_of_value_round_trip_witness :
  Model_value Model_gpt_4o = "gpt-4o" /\
  Model_of_value "gpt-4o" = Some Model_gpt_4o /\
  Model_of_value "mixtral-8x7b-32768" <> None.
Proof.
  destruct Model_of_value_round_trip as (Hback & Hvalue & Hcatalog).
  split; [|split].
  - now apply (Hvalue "gpt-4o" Model_gpt_4o), (Hback Model_gpt_4o).
  - exact (Hback Model_gpt_4o).
  - apply Hcatalog. cbn. tauto.
Defined.

(** X4.  The value of an [AgentType] member looks that member up again, a
    successful lookup of a string gives a member with that string as its
    value, and the strings that look a member up are exactly the ones
    [get_available_agents] lists. *)
Theorem AgentType_of_value_round_trip :
  (forall a, AgentType_of_value (AgentType_value a) = Some a) /\
  (forall v a, AgentType_of_value v = Some a -> AgentType_value a = v) /\
  (forall v, In v get_available_agents <-> AgentType_of_value v <> None).
Proof.
  split; [now intros [] | split].
  - intros v a. unfold AgentType_of_value. cbn [find AgentType_members AgentType_value].
    destruct (String.eqb_spec "sage" v) as [<-|_]; [now intros [= <-]|].
    destruct (String.eqb_spec "scholar" v) as [<-|_]; [now intros [= <-]|].
    discriminate.
  - intros v. unfold AgentType_of_value, get_available_agents.
    cbn [find AgentType_members AgentType_value map].
    destruct (String.eqb_spec "sage" v) as [<-|n1].
    { split; [discriminate | now left]. }
    destruct (String.eqb_spec "scholar" v) as [<-|n2].
    { split; [discriminate | right; now left]. }
    split; [|now intros H].
    intros [e|[e|[]]]; congruence.
Qed.

Lemma AgentType_of_value_round_trip_witness :
  AgentType_value SCHOLAR = "scholar" /\ AgentType_of_value "Sage" = None.
Proof.
  destruct AgentType_of_value_round_trip as (Hback & Hvalue & Hlisted).
  split.
  - exact (Hvalue "scholar" SCHOLAR eq_refl).
  - destruct (AgentType_of_value "Sage") eqn:E; [|reflexivity].
    assert (H : In "Sage" get_available_agents).
    { apply Hlisted. rewrite E. discriminate. }
    cbn in H. destruct H as [H|[H|[]]]; discriminate H.
Defined.

(** X5.  [list_models] lists the catalog entry by entry and in order: the
    identifiers are the catalog's, the identifiers are exactly the values
    the [Model] enum accepts, and each [provider] is the string value
    ("openai" or "groq") of the provider [get_model_provider] computes for
    that identifier. *)
Theorem list_models_catalog :
  map id list_models = map fst get_available_models /\
  map id list_models = map snd Model_members /\
  Forall (fun info =>
            provider info = ModelProvider_value (get_model_provider (id info)) /\
            (provider info = "openai" \/ provider info = "groq") /\
            Model_of_value (id info) <> None)
    list_models.
Proof.
  split; [reflexivity | split; [now rewrite Model_members_values|]].
  unfold list_models, get_available_models. cbn [map].
  repeat (constructor;
          [cbn [id provider];
           split; [reflexivity | split; [cbn; tauto|]];
           apply Model_of_value_known; cbn; tauto|]).
  constructor.
Qed.

(** X6.  Once an identifier resolves to GROQ, so does every identifier
    that extends it; an identifier that resolves to OPENAI may stop doing so
    when extended ("llam" against "llama"). *)
Theorem get_model_provider_extension (model_id suffix : string) :
  (get_model_provider model_id = GROQ ->
   get_model_provider (model_id ++ suffix) = GROQ) /\
  get_model_provider "llam" = OPENAI /\
  get_model_provider ("llam" ++ "a") = GROQ.
Proof.
  split; [|split; reflexivity].
  unfold get_model_provider, startswith. cbn [existsb].
  rewrite orb_false_r.
  destruct (String.prefix "llama" model_id) eqn:E1.
  - intros _. apply prefix_starts_with in E1. destruct E1 as [rest ->].
    now rewrite append_assoc, prefix_app.
  - destruct (String.prefix "mixtral" model_id) eqn:E2; [|discriminate].
    intros _. apply prefix_starts_with in E2. destruct E2 as [rest ->].
    rewrite append_assoc, prefix_app. now rewrite orb_true_r.
Qed.

Lemma get_model_provider_extension_witness :
  get_model_provider ("llama-3.3-70b" ++ "-versatile") = GROQ.
Proof.
  exact (proj1 (get_model_provider_extension "llama-3.3-70b" "-versatile")
           eq_refl).
Defined.

End EnumFacts.

(** ** Iteration *)
Section IterationFacts.
Import Py.
Context {St E A G : Type} (next : G -> Eff St E (option (A * G))).

(** What [n] pulls deliver is the beginning of what more pulls deliver. *)
Lemma consume_firstn (n m : nat) (g : G) (s : St) :
  n <= m ->
  fst (fst (consume next n g s)) = firstn n (fst (fst (consume next m g s))).
Proof.
  revert m g s. induction n as [|n IH]; intros m g s Hle; [reflexivity|].
  destruct m as [|m]; [inversion Hle|]. apply le_S_n in Hle.
  cbn [consume].
  destruct (next g s) as [[[[a g']|]|e] s1]; try reflexivity.
  specialize (IH m g' s1 Hle).
  destruct (consume next n g' s1) as [[items1 end1] s2].
  destruct (consume next m g' s1) as [[items2 end2] s3].
  cbn in *. now rewrite IH.
Qed.

(** An iteration that has ended is not changed by further pulls. *)
Lemma consume_ended (n m : nat) (g : G) (s : St) :
  n <= m ->
  (forall g', snd (fst (consume next n g s)) <> Pending g') ->
  consume next m g s = consume next n g s.
Proof.
  revert m g s. induction n as [|n IH]; intros m g s Hle Hend.
  - elim (Hend g). reflexivity.
  - destruct m as [|m]; [inversion Hle|]. apply le_S_n in Hle.
    cbn [consume] in *.
    destruct (next g s) as [[[[a g']|]|e] s1]; try reflexivity.
    specialize (IH m g' s1 Hle).
    destruct (consume next n g' s1) as [[items1 end1] s2].
    rewrite IH; [reflexivity|]. exact Hend.
Qed.

End IterationFacts.

(** ** More on the run handler and the relay *)
Section RunFacts.
Import Py Operator Routes.
Context {X : Externals}.

Lemma call_anext_calls (it : AsyncIter) (s : St) :
  calls (snd (call_anext it s)) = calls s.
Proof. unfold call_anext. now destruct (anext it (world s)). Qed.

Lemma consume_call_anext_calls (n : nat) (it : AsyncIter) (s : St) :
  calls (snd (consume call_anext n it s)) = calls s.
Proof.
  revert it s. induction n as [|n IH]; intros it s; [reflexivity|].
  cbn [consume]. pose proof (call_anext_calls it s) as H.
  destruct (call_anext it s) as [[[[chunk it']|]|e] s1]; cbn [snd] in *;
    try exact H.
  specialize (IH it' s1).
  destruct (consume call_anext n it' s1) as [[items ending] s2].
  cbn [snd] in *. congruence.
Qed.

Lemma consume_suspended_calls (n : nat) (it : AsyncIter) (s : St) :
  calls (snd (consume streamer_anext n (Suspended it) s)) = calls s.
Proof.
  rewrite consume_suspended. pose proof (consume_call_anext_calls n it s) as H.
  now destruct (consume call_anext n it s) as [[items ending] s2].
Qed.

(** The first pull of a fresh relay opens the stream and goes on as a
    relay suspended on it. *)
Lemma consume_created (n : nat) (agent : Agent) (message : string) (s : St) :
  consume streamer_anext (S n) (Created agent message) s =
    match call_arun_stream agent message s with
    | (Return run_response, s1) =>
        consume streamer_anext (S n) (Suspended run_response) s1
    | (Raise e, s1) => (([], Failed e), s1)
    end.
Proof.
  cbn [consume streamer_anext]. unfold bind at 1.
  now destruct (call_arun_stream agent message s) as [[run_response|e] s1].
Qed.

(** X7.  With the stream flag set and the agent constructed, [run_agent]
    answers at once with a streaming response of media type
    text/event-stream whose content is the relay for that agent and the
    request's message, not yet started: the state is the one construction
    left, so no run of the agent has been invoked when [run_agent]
    returns. *)
Theorem run_agent_streaming
    (agent_id : AgentType) (body : RunRequest) (s s1 : St) (agent : Agent) :
  stream body = true ->
  run_agent_get_agent agent_id body s = (Return agent, s1) ->
  run_agent agent_id body s =
    (Return (StreamingResponse (chat_response_streamer agent (message body))
               "text/event-stream"), s1) /\
  run_calls (calls s1) = run_calls (calls s).
Proof.
  intros Hstream H. rewrite run_agent_eq, H, Hstream. split; [reflexivity|].
  pose proof (run_agent_get_agent_calls agent_id body s) as (ev & Hc & _ & Hr).
  rewrite H in Hc. cbn [snd] in Hc.
  rewrite Hc, run_calls_app, Hr. apply app_nil_r.
Qed.

(** X8.  However many fragments are pulled from the relay, one or more,
    the agent's streaming run is invoked exactly once, with the message
    and [stream=True], and no builder is called; before the first pull
    nothing is invoked at all. *)
Theorem chat_response_streamer_opens_once
    (agent : Agent) (message : string) (n : nat) (s : St) :
  calls (snd (consume streamer_anext (S n) (chat_response_streamer agent message) s)) =
    (calls s ++ [CallArun agent message true])%list /\
  snd (consume streamer_anext 0 (chat_response_streamer agent message) s) = s.
Proof.
  split; [|reflexivity].
  unfold chat_response_streamer. rewrite consume_created.
  unfold call_arun_stream. rewrite logged_eq.
  destruct (fst (arun_stream agent message (world s))) as [run_response|e].
  - now rewrite consume_suspended_calls.
  - reflexivity.
Qed.

(** X9.  The external calls of one [run_agent], in full: first the one
    builder call for the request's [agent_id]; then, only when the agent
    was constructed and the stream flag is false, one run of that agent
    with the request's message and [stream=False]; nothing else.  In
    particular [run_agent] itself never invokes a streaming run and never
    calls a builder twice. *)
Theorem run_agent_call_log (agent_id : AgentType) (body : RunRequest) (s : St) :
  calls (snd (run_agent agent_id body s)) =
    (calls s ++
     match agent_id with
     | SAGE => CallGetSage (run_agent_builder_args body)
     | SCHOLAR => CallGetScholar (run_agent_builder_args body)
     end ::
     match fst (run_agent_get_agent agent_id body s) with
     | Return agent =>
         if stream body then [] else [CallArun agent (message body) false]
     | Raise _ => []
     end)%list.
Proof.
  assert (Hc : calls (snd (run_agent_get_agent agent_id body s)) =
               (calls s ++
                [match agent_id with
                 | SAGE => CallGetSage (run_agent_builder_args body)
                 | SCHOLAR => CallGetScholar (run_agent_builder_args body)
                 end])%list).
  { unfold run_agent_get_agent. rewrite get_agent_eq.
    now destruct agent_id. }
  rewrite run_agent_eq.
  destruct (run_agent_get_agent agent_id body s) as [[agent|e] s1];
    cbn [fst snd] in *.
  - destruct (stream body); [exact Hc|].
    unfold call_arun. rewrite logged_eq.
    destruct (fst (arun agent (message body) (world s1))); cbn [snd calls];
      rewrite Hc; now rewrite <- app_assoc.
  - now destruct (isinstance_Exception e).
Qed.


(** X11.  [run_agent] returns a result exactly when the agent is
    constructed and either the stream flag is set or the agent's run
    returns a response; in every other case an exception leaves it. *)
Theorem run_agent_returns_iff (agent_id : AgentType) (body : RunRequest) (s : St) :
  (exists result, fst (run_agent agent_id body s) = Return result) <->
  (exists agent s1,
      run_agent_get_agent agent_id body s = (Return agent, s1) /\
      (stream body = true \/
       exists response,
         fst (arun agent (message body) (world s1)) = Return response)).
Proof.
  rewrite run_agent_eq.
  destruct (run_agent_get_agent agent_id body s) as [[agent|e] s1].
  - destruct (stream body) eqn:Hs.
    + split; intros _; [|now eexists].
      exists agent, s1. split; [reflexivity | now left].
    + unfold call_arun. rewrite logged_eq. split.
      * intros [result H]. exists agent, s1. split; [reflexivity|]. right.
        destruct (fst (arun agent (message body) (world s1))) as [response|e'];
          [now exists response | discriminate H].
      * intros (agent0 & s0 & [= <- <-] & [Hfalse|[response Hr]]);
          [discriminate Hfalse|].
        rewrite Hr. now eexists.
  - split.
    + intros [result H]. destruct (isinstance_Exception e); discriminate H.
    + intros (agent0 & s0 & H & _). discriminate H.
Qed.

(** X12.  An exception of the outside leaves [run_agent] unchanged in just
    two ways: construction raised it and it is no instance of
    [Exception]; or the agent was constructed, the stream flag is false
    and the agent's run raised it. *)
Theorem run_agent_propagated
    (agent_id : AgentType) (body : RunRequest) (s s' : St) (e : ForeignExc) :
  run_agent agent_id body s = (Raise (Propagated e), s') ->
  (run_agent_get_agent agent_id body s = (Raise e, s') /\
   isinstance_Exception e = false) \/
  (exists agent s1,
      run_agent_get_agent agent_id body s = (Return agent, s1) /\
      stream body = false /\
      fst (arun agent (message body) (world s1)) = Raise e).
Proof.
  rewrite run_agent_eq.
  destruct (run_agent_get_agent agent_id body s) as [[agent|e0] s1].
  - destruct (stream body) eqn:Hs; [discriminate|].
    unfold call_arun. rewrite logged_eq.
    destruct (fst (arun agent (message body) (world s1))) as [response|e1] eqn:E;
      [discriminate|].
    intros [= <- <-]. right. now exists agent, s1.
  - destruct (isinstance_Exception e0) eqn:E; [discriminate|].
    intros [= <- <-]. now left.
Qed.


End RunFacts.

Section RunExamples.
Import Py Operator Routes Demo.
#[local] Existing Instance echo.

Lemma run_agent_streaming_witness :
  let body := request "hello" true Model_gpt_4o None in
  let args := Build_BuilderArgs "gpt-4o" None None true in
  let scholar := {| agent_name := "Scholar"; agent_args := args |} in
  let s1 := {| world := 1; calls := [CallGetScholar args] |} in
  run_agent SCHOLAR body start =
    (Return (StreamingResponse (chat_response_streamer scholar "hello")
               "text/event-stream"), s1) /\
  run_calls (calls s1) = run_calls (calls start).
Proof.
  intros body args scholar s1.
  exact (run_agent_streaming SCHOLAR body start s1 scholar eq_refl eq_refl).
Defined.


Lemma run_agent_returns_iff_witness :
  exists result,
    fst (run_agent SAGE (request "hello" false Model_gpt_4o None) start) =
      Return result.
Proof.
  apply (proj2 (run_agent_returns_iff SAGE
                  (request "hello" false Model_gpt_4o None) start)).
  eexists _, _. split; [reflexivity|]. right. eexists. reflexivity.
Defined.

Lemma run_agent_propagated_witness :
  let body := request "" false Model_gpt_4o None in
  let args := Build_BuilderArgs "gpt-4o" None None true in
  let sage := {| agent_name := "Sage"; agent_args := args |} in
  let s' := {| world := 1; calls := [CallGetSage args; CallArun sage "" false] |} in
  (run_agent_get_agent SAGE body start = (Raise (ValueError "empty message"), s') /\
   isinstance_Exception (ValueError "empty message") = false) \/
  (exists agent s1,
      run_agent_get_agent SAGE body start = (Return agent, s1) /\
      stream body = false /\
      fst (arun agent (message body) (world s1)) =
        Raise (ValueError "empty message")).
Proof.
  intros body args sage s'.
  exact (run_agent_propagated SAGE body start s' (ValueError "empty message")
           eq_refl).
Defined.


End RunExamples.
